(** * flask-app-with-oauth.py: the OAuth web session, as a shallow embedding

    The script wires two Flask views, [callback] and [index], around the
    Databricks SDK's OAuth helper, a session dict and a query form.  The
    views are embedded as programs of a small state-and-exception monad
    over the request context (the session dict, the flash queue, and the
    record of the downstream calls made so far).  Everything the script
    only calls - the PKCE generator, the provider's token endpoint, the
    statement-execution endpoint, the form validators, pandas - is a field
    of [Services]: the views are parametric in it. *)

From Stdlib Require Import ZArith Ascii.
From stdpp Require Import gmap strings list fin_maps pretty.

Open Scope string_scope.

(** ** Python exceptions *)

(** [repr] of a str.  Python uses the single quote unless the string
    holds a single quote and no double quote; it escapes the quote it
    uses and the backslash, writes tab, newline and carriage return with
    the letters t, n and r after a backslash, and the other control
    characters as a backslash, an x and two hexadecimal digits.  Bytes
    above 127 - the UTF-8 of non-ASCII text - are copied, as Python
    copies printable non-ASCII characters; the keys the script looks up
    are ASCII. *)
Definition backslash : ascii := "092"%char.
Definition single_quote : ascii := "039"%char.
Definition double_quote : ascii := "034"%char.

Fixpoint contains_char (c : ascii) (s : string) : bool :=
  match s with
  | EmptyString => false
  | String a s' => Ascii.eqb a c || contains_char c s'
  end.

Definition hex_digit (n : N) : ascii :=
  match n with
  | 0 => "0" | 1 => "1" | 2 => "2" | 3 => "3" | 4 => "4" | 5 => "5"
  | 6 => "6" | 7 => "7" | 8 => "8" | 9 => "9" | 10 => "a" | 11 => "b"
  | 12 => "c" | 13 => "d" | 14 => "e" | _ => "f"
  end%N%char.

Definition hex_escape (c : ascii) : string :=
  let n := N_of_ascii c in
  String backslash
    (String "x" (String (hex_digit (n / 16)) (String (hex_digit (n mod 16)) EmptyString))).

Definition repr_char (quote c : ascii) : string :=
  if Ascii.eqb c quote || Ascii.eqb c backslash then
    String backslash (String c EmptyString)
  else if Ascii.eqb c "009" then String backslash "t"
  else if Ascii.eqb c "010" then String backslash "n"
  else if Ascii.eqb c "013" then String backslash "r"
  else if (N_of_ascii c <? 32)%N || Ascii.eqb c "127" then hex_escape c
  else String c EmptyString.

Fixpoint repr_body (quote : ascii) (s : string) : string :=
  match s with
  | EmptyString => EmptyString
  | String c s' => repr_char quote c +:+ repr_body quote s'
  end.

Definition py_repr (s : string) : string :=
  let quote :=
    if contains_char single_quote s && negb (contains_char double_quote s)
    then double_quote else single_quote in
  String quote (repr_body quote s +:+ String quote EmptyString).

(** The classes of the exceptions that travel through the two views.  The
    first four are Python's own; the others are the error kinds of the
    spec's taxonomy, raised by the SDK or by the downstream services. *)
Inductive ExnClass : Type :=
| KeyErrorClass
| AttributeErrorClass
| TypeErrorClass
| ValueErrorClass
| StateMismatchErrorClass
| AuthorizationDeniedErrorClass
| TokenExchangeErrorClass
| QueryExecutionErrorClass.

(** An exception object: its class and its text, [str(e)], which is what
    ['{}'.format(e)] gives. *)
Record Exn : Type := {
  exn_class : ExnClass;
  exn_text : string
}.

(** [KeyError(key)]: its text is the repr of the key. *)
Definition KeyError (key : string) : Exn :=
  {| exn_class := KeyErrorClass; exn_text := py_repr key |}.

(** An exception built from a message has the message as its text. *)
Definition AttributeError (msg : string) : Exn :=
  {| exn_class := AttributeErrorClass; exn_text := msg |}.
Definition TypeError (msg : string) : Exn :=
  {| exn_class := TypeErrorClass; exn_text := msg |}.
Definition ValueError (msg : string) : Exn :=
  {| exn_class := ValueErrorClass; exn_text := msg |}.
Definition StateMismatchError : Exn :=
  {| exn_class := StateMismatchErrorClass; exn_text := "state mismatch" |}.
Definition AuthorizationDeniedError (msg : string) : Exn :=
  {| exn_class := AuthorizationDeniedErrorClass; exn_text := msg |}.
Definition TokenExchangeError (msg : string) : Exn :=
  {| exn_class := TokenExchangeErrorClass; exn_text := msg |}.
Definition QueryExecutionError (msg : string) : Exn :=
  {| exn_class := QueryExecutionErrorClass; exn_text := msg |}.

(** ** Data model *)

(** [OAuthClient(host=, client_id=, client_secret=, redirect_url=, scopes=)] *)
Record OAuthClient : Type := {
  host : string;
  client_id : string;
  client_secret : string;
  redirect_url : string;
  scopes : list string
}.

(** A URL kept structured: the endpoint and its query parameters, in order. *)
Record Url : Type := {
  endpoint : string;
  query : list (string * string)
}.

(** The SDK's [Consent]: one login attempt in flight. *)
Record Consent : Type := {
  verifier : string;
  challenge : string;
  state : string;
  auth_url : Url
}.

(** [consent.as_dict()]: what of a consent goes into the session. *)
Record ConsentDict : Type := {
  d_state : string;
  d_verifier : string
}.

Definition Consent_as_dict (c : Consent) : ConsentDict :=
  {| d_state := state c; d_verifier := verifier c |}.

(** The token pair; [as_dict] and [from_dict] carry exactly these fields. *)
Record Credentials : Type := {
  token_type : string;
  access_token : string;
  refresh_token : option string;
  expiry : Z
}.

(** The values the views store under the keys of the session dict. *)
Inductive SVal : Type :=
| VConsent (d : ConsentDict)
| VCreds (c : Credentials).

(** The SDK's statement response, with every [Optional] field the view
    dereferences. *)
Record ColumnInfo : Type := { name : option string }.
Record ResultSchema : Type := { columns : option (list ColumnInfo) }.
Record ResultManifest : Type := { schema : option ResultSchema }.
Record ResultData : Type := { data_array : option (list (list string)) }.
Record StatementResponse : Type := {
  manifest : option ResultManifest;
  result : option ResultData
}.

(** A pandas frame, as far as the view handles it. *)
Record DataFrame : Type := {
  df_columns : list (option string);
  df_data : option (list (list string))
}.

Inductive Method : Type := GET | HEAD | POST | PUT | PATCH | DELETE | OPTIONS.

Record Request : Type := {
  path : string;
  method : Method;
  args : gmap string string;
  form_data : gmap string string
}.

(** [QueryForm()]: the form bound to the request's form data. *)
Record QueryForm : Type := { fields : gmap string string }.

Inductive Location : Type :=
| External (u : Url)
| Local (p : string).

(** What a view returns, and what the framework answers when no view
    returns: [ServerError] is the framework's page for an exception that
    left the view. *)
Inductive Response : Type :=
| Redirect (to : Location)
| Render (template : string) (form : QueryForm) (table : option string)
| NotFound
| MethodNotAllowed
| OptionsResponse
| ServerError (e : Exn).

(** ** The services the script calls *)

(** The downstream operations of the SDK that the views invoke: one
    entry per invocation by a view.  What the SDK does inside one
    invocation - a refresh of the token before the statement, retries of
    its own - is not recorded. *)
Inductive Call : Type :=
| CallTokenExchange (code : option string) (code_verifier : string)
| CallExecuteStatement (c : Credentials) (warehouse statement : option string).

Record Services : Type := {
  (** the PKCE generator's draw for this request: verifier, challenge, state *)
  pkce_generate : string * string * string;
  (** the provider's authorization endpoint *)
  authorization_endpoint : string;
  (** the provider's token endpoint, given the code and the verifier: the
      credentials, or the message of the failure *)
  token_endpoint : option string -> string -> string + Credentials;
  (** [workspace_client.statement_execution.execute_statement], with the
      SDK's lazy refresh of the credentials it was built from *)
  execute_statement :
    Credentials -> option string -> option string -> Exn + StatementResponse;
  (** whether [forms.QueryForm] validates this form data: its validators,
      the CSRF check of Flask-WTF among them *)
  form_validate : gmap string string -> bool;
  (** [pd.DataFrame(data=, columns=)] *)
  pd_DataFrame : option (list (list string)) -> list (option string) -> Exn + DataFrame;
  (** [df.to_html(...)] *)
  to_html : DataFrame -> string
}.

(** ** The request context and its monad *)

(** [session] holds the entries of Flask's session under the script's own
    keys, "consent" and "creds".  [flashes] is the flash queue, which
    Flask keeps in that same session under "_flashes".  [calls] records
    the SDK operations the views have invoked.  The CSRF token that
    Flask-WTF keeps in the session under "csrf_token" once a form was
    built is not part of the context: the script never reads it, and
    whether a submission passes the CSRF check is part of
    [form_validate]. *)
Record Ctx : Type := {
  session : gmap string SVal;
  flashes : list (string * string);
  calls : list Call
}.

Inductive Outcome (A : Type) : Type :=
| Returned (a : A)
| Raised (e : Exn).
Arguments Returned {A} a.
Arguments Raised {A} e.

Definition Handler (A : Type) : Type := Ctx -> Outcome A * Ctx.

Definition ret {A} (a : A) : Handler A := fun ctx => (Returned a, ctx).

Definition raise {A} (e : Exn) : Handler A := fun ctx => (Raised e, ctx).

Definition bind {A B} (m : Handler A) (k : A -> Handler B) : Handler B :=
  fun ctx =>
    match m ctx with
    | (Returned a, ctx') => k a ctx'
    | (Raised e, ctx') => (Raised e, ctx')
    end.

(** [try: m  except Exception as e: ...]: the exception becomes a value;
    the effects [m] had before it raised stay. *)
Definition try_except {A} (m : Handler A) : Handler (Exn + A) :=
  fun ctx =>
    match m ctx with
    | (Returned a, ctx') => (Returned (inr a), ctx')
    | (Raised e, ctx') => (Returned (inl e), ctx')
    end.

Declare Scope handler_scope.
Delimit Scope handler_scope with handler.
Notation "x <- m ;; k" := (bind m (fun x => k))
  (at level 100, m at next level, right associativity) : handler_scope.
Notation "m ;;; k" := (bind m (fun _ => k))
  (at level 100, right associativity) : handler_scope.

(** [session[key]] *)
Definition session_get (key : string) : Handler SVal :=
  fun ctx =>
    match session ctx !! key with
    | Some v => (Returned v, ctx)
    | None => (Raised (KeyError key), ctx)
    end.

(** [session[key] = v] *)
Definition session_set (key : string) (v : SVal) : Handler unit :=
  fun ctx =>
    (Returned tt,
     {| session := <[key := v]> (session ctx);
        flashes := flashes ctx;
        calls := calls ctx |}).

(** [key in session] *)
Definition session_contains (key : string) : Handler bool :=
  fun ctx => (Returned (bool_decide (is_Some (session ctx !! key))), ctx).

(** [flash(message, category)]: appends the pair to the queue Flask keeps
    under session["_flashes"], the [flashes] component of the context. *)
Definition flash (message category : string) : Handler unit :=
  fun ctx =>
    (Returned tt,
     {| session := session ctx;
        flashes := flashes ctx ++ [(category, message)];
        calls := calls ctx |}).

(** A downstream call: noted in the context, its outcome returned or
    raised. *)
Definition downstream {A} (c : Call) (r : Exn + A) : Handler A :=
  fun ctx =>
    let ctx' := {| session := session ctx;
                   flashes := flashes ctx;
                   calls := calls ctx ++ [c] |} in
    match r with
    | inl e => (Raised e, ctx')
    | inr a => (Returned a, ctx')
    end.

(** ** The SDK's OAuth helper *)

Section create_flask_app.

Variable oauth_client : OAuthClient.
Variable svc : Services.
(** the module-level [warehouse_id], as [__main__] set it *)
Variable warehouse_id : option string.

Definition APP_NAME : string := "flask-demo".

(** Modelled from the spec: the SDK's URL builder is not part of the
    script.  It composes the provider's authorization endpoint with
    client_id, redirect_url, the requested scopes, the challenge and the
    state as query parameters (section 4.2). *)
Definition build_auth_url (config : OAuthClient) (chal st : string) : Url :=
  {| endpoint := authorization_endpoint svc;
     query := [("client_id", client_id config);
               ("redirect_uri", redirect_url config);
               ("scope", String.concat " " (scopes config));
               ("code_challenge", chal);
               ("state", st)] |}.

(** Modelled from the spec: [oauth_client.initiate_consent()] belongs to
    the SDK.  It takes the generator's verifier, challenge and state for
    one login attempt and builds the authorization URL from the challenge
    and the state (sections 4.1 and 4.2). *)
Definition initiate_consent : Consent :=
  let '(v, chal, st) := pkce_generate svc in
  {| verifier := v; challenge := chal; state := st;
     auth_url := build_auth_url oauth_client chal st |}.

(** [Consent.from_dict(oauth_client, raw)]: reads the keys of a consent
    dict; a dict of another shape has no such key. *)
Definition Consent_from_dict (raw : SVal) : Handler ConsentDict :=
  match raw with
  | VConsent d => ret d
  | VCreds _ => raise (KeyError "state")
  end.

(** [SessionCredentials.from_dict(oauth_client, raw)] *)
Definition SessionCredentials_from_dict (raw : SVal) : Handler Credentials :=
  match raw with
  | VCreds c => ret c
  | VConsent _ => raise (KeyError "token")
  end.

(** Modelled from the spec: [consent.exchange_callback_parameters] is the
    SDK's Callback Exchanger (section 4.3).  It validates that the
    callback's state is the expected one and fails with
    [StateMismatchError] if not; fails with [AuthorizationDeniedError]
    if the provider's response carries an error parameter; otherwise
    calls the token endpoint with the authorization code and the
    verifier, failing with [TokenExchangeError] when that call fails, and
    returns the credentials. *)
Definition exchange_callback_parameters (consent : ConsentDict)
    (callback_params : gmap string string) : Handler Credentials :=
  if bool_decide (callback_params !! "state" = Some (d_state consent)) then
    match callback_params !! "error" with
    | Some err => raise (AuthorizationDeniedError err)
    | None =>
        let code := callback_params !! "code" in
        downstream (CallTokenExchange code (d_verifier consent))
          (match token_endpoint svc code (d_verifier consent) with
           | inl msg => inl (TokenExchangeError msg)
           | inr creds => inr creds
           end)
    end
  else raise StateMismatchError.

(** ** Flask helpers *)

(** [url_for("index")]: the rule [index] is registered under. *)
Definition url_for_index : string := "/".

Definition redirect (to : Location) : Response := Redirect to.

Definition render_template (template : string) (form : QueryForm)
    (table : option string) : Response :=
  Render template form table.

(** flask_wtf's [form.is_submitted()] *)
Definition is_submitted (req : Request) : bool :=
  match method req with
  | POST | PUT | PATCH | DELETE => true
  | GET | HEAD | OPTIONS => false
  end.

(** [form.validate_on_submit()] *)
Definition validate_on_submit (req : Request) (form : QueryForm) : bool :=
  is_submitted req && form_validate svc (fields form).

(** [form.sql.data] *)
Definition sql_data (form : QueryForm) : option string := fields form !! "sql".

(** [WorkspaceClient(host=, product=, credentials_provider=)] *)
Record WorkspaceClient : Type := {
  wc_host : string;
  wc_product : string;
  wc_credentials_provider : Credentials
}.

(** ** The views *)

(** The body of the [try] in [index]: run the statement, read the column
    names off the manifest, build the frame. *)
Definition run_query (workspace_client : WorkspaceClient)
    (query : option string) : Handler DataFrame :=
  (text_results <-
     downstream
       (CallExecuteStatement (wc_credentials_provider workspace_client)
          warehouse_id query)
       (execute_statement svc (wc_credentials_provider workspace_client)
          warehouse_id query);;
   columns <-
     match manifest text_results with
     | None => raise (AttributeError "'NoneType' object has no attribute 'schema'")
     | Some m =>
         match schema m with
         | None => raise (AttributeError "'NoneType' object has no attribute 'columns'")
         | Some sch =>
             match columns sch with
             | None => raise (TypeError "'NoneType' object is not iterable")
             | Some cs => ret (map name cs)
             end
         end
     end;;
   match result text_results with
   | None => raise (AttributeError "'NoneType' object has no attribute 'data_array'")
   | Some res =>
       match pd_DataFrame svc (data_array res) columns with
       | inl e => raise e
       | inr df => ret df
       end
   end)%handler.

(** [@app.route("/callback")] *)
Definition callback (req : Request) : Handler Response :=
  (raw <- session_get "consent";;
   consent <- Consent_from_dict raw;;
   creds <- exchange_callback_parameters consent (args req);;
   session_set "creds" (VCreds creds);;;
   ret (redirect (Local url_for_index)))%handler.

(** [@app.route('/', methods=('GET', 'POST'))].  [QueryForm()] binds the
    request's form data; the CSRF token Flask-WTF puts into the session
    when it builds the form lies outside the context (see [Ctx]).  The
    [try] covers the execution call, the reading of the response and
    [pd.DataFrame]; [df.to_html] and [render_template] come after it and
    are taken as returning. *)
Definition index (req : Request) : Handler Response :=
  (has_creds <- session_contains "creds";;
   if negb has_creds then
     let consent := initiate_consent in
     session_set "consent" (VConsent (Consent_as_dict consent));;;
     ret (redirect (External (auth_url consent)))
   else
     raw <- session_get "creds";;
     credentials_provider <- SessionCredentials_from_dict raw;;
     let workspace_client :=
       {| wc_host := host oauth_client;
          wc_product := APP_NAME;
          wc_credentials_provider := credentials_provider |} in
     let form := {| fields := form_data req |} in
     if validate_on_submit req form then
       let query := sql_data form in
       r <- try_except (run_query workspace_client query);;
       match r with
       | inl e =>
           flash (exn_text e) "alert-danger";;;
           ret (render_template "index.html" form None)
       | inr df =>
           ret (render_template "index.html" form (Some (to_html svc df)))
       end
     else ret (render_template "index.html" form None))%handler.

(** ** The request-handling boundary *)

(** A view run by the framework: what it returns is the response; an
    exception that leaves the view becomes the framework's error page. *)
Definition run_view (view : Handler Response) : Ctx -> Response * Ctx :=
  fun ctx =>
    match view ctx with
    | (Returned r, ctx') => (r, ctx')
    | (Raised e, ctx') => (ServerError e, ctx')
    end.

(** The two rules of the app.  A rule that allows GET answers HEAD with
    the same view, and every rule answers OPTIONS itself.  The path is
    the one the router matches against the rules: a path the router
    first normalises (repeated slashes, answered by a redirect to the
    merged path) and the rule Flask adds for static files are not
    modelled; such paths are [NotFound] here. *)
Definition dispatch_request (req : Request) : Ctx -> Response * Ctx :=
  if bool_decide (path req = "/callback") then
    match method req with
    | GET | HEAD => run_view (callback req)
    | OPTIONS => fun ctx => (OptionsResponse, ctx)
    | POST | PUT | PATCH | DELETE => fun ctx => (MethodNotAllowed, ctx)
    end
  else if bool_decide (path req = "/") then
    match method req with
    | GET | HEAD | POST => run_view (index req)
    | OPTIONS => fun ctx => (OptionsResponse, ctx)
    | PUT | PATCH | DELETE => fun ctx => (MethodNotAllowed, ctx)
    end
  else fun ctx => (NotFound, ctx).

End create_flask_app.

(** ** A concrete deployment *)

Module Demo.

Definition client : OAuthClient :=
  {| host := "https://adb.example.net";
     client_id := "app-1";
     client_secret := "s3cret";
     redirect_url := "http://localhost:5001/callback";
     scopes := ["all-apis"] |}.

Definition fresh : Credentials :=
  {| token_type := "Bearer"; access_token := "AT1";
     refresh_token := Some "RT1"; expiry := 3600 |}.

Definition one_by_one : StatementResponse :=
  {| manifest :=
       Some {| schema := Some {| columns := Some [ {| name := Some "1" |} ] |} |};
     result := Some {| data_array := Some [["1"]] |} |}.

(** The SDK's refreshable credentials in front of the execution endpoint:
    a token past its expiry is refreshed first, and a failed refresh
    raises instead of running the statement. *)
Definition refresh_then_execute (now : Z)
    (refresh : string -> string + Credentials)
    (run : Credentials -> option string -> option string -> Exn + StatementResponse)
    (c : Credentials) (warehouse statement : option string)
  : Exn + StatementResponse :=
  if (expiry c <=? now)%Z then
    match refresh_token c with
    | None => inl (ValueError "oauth2: token expired and refresh token is not set")
    | Some rt =>
        match refresh rt with
        | inl msg => inl (ValueError msg)
        | inr c' => run c' warehouse statement
        end
    end
  else run c warehouse statement.

(** A provider that accepts the code ABC with the verifier V1, an
    endpoint that answers SELECT 1 and rejects everything else, a clock at
    [now], and a refresh endpoint that rejects every refresh token. *)
Definition services (now : Z) : Services :=
  {| pkce_generate := ("V1", "C1", "S1");
     authorization_endpoint := "https://adb.example.net/oidc/v1/authorize";
     token_endpoint := fun code v =>
       match code with
       | Some "ABC" => if bool_decide (v = "V1") then inr fresh
                       else inl "invalid_grant"
       | _ => inl "invalid_grant"
       end;
     execute_statement :=
       refresh_then_execute now
         (fun _ => inl "invalid_grant: refresh token revoked")
         (fun _ _ q =>
            match q with
            | Some "SELECT 1" => inr one_by_one
            | _ => inl (QueryExecutionError "PARSE_SYNTAX_ERROR")
            end);
     form_validate := fun f => bool_decide (is_Some (f !! "sql"));
     pd_DataFrame := fun data cols => inr {| df_columns := cols; df_data := data |};
     to_html := fun _ => "<table>...</table>" |}.

Definition empty_ctx : Ctx := {| session := ∅; flashes := []; calls := [] |}.

(** the context after an unauthenticated GET / *)
Definition pending_ctx : Ctx :=
  {| session := {[ "consent" := VConsent {| d_state := "S1"; d_verifier := "V1" |} ]};
     flashes := []; calls := [] |}.

(** the context of a logged-in session *)
Definition logged_in_ctx : Ctx :=
  {| session := {[ "creds" := VCreds fresh ]}; flashes := []; calls := [] |}.

Definition get_index : Request :=
  {| path := "/"; method := GET; args := ∅; form_data := ∅ |}.

Definition post_index (sql : string) : Request :=
  {| path := "/"; method := POST; args := ∅; form_data := {[ "sql" := sql ]} |}.

Definition get_callback (code st : string) : Request :=
  {| path := "/callback"; method := GET;
     args := {[ "code" := code; "state" := st ]}; form_data := ∅ |}.

End Demo.

(** ** Well-formed sessions *)




Definition is_execute (c : Call) : bool :=
  match c with
  | CallExecuteStatement _ _ _ => true
  | CallTokenExchange _ _ => false
  end.

(** ** Start-up *)






(** ** One browser session *)

(** The requests of one browser, served in order: each request finds the
    request context the one before it left.  The services are given per
    request, since the generator's draw and the endpoints' answers
    differ from one request to the next. *)
Fixpoint serve (oauth_client : OAuthClient) (warehouse_id : option string)
    (reqs : list (Services * Request)) (ctx : Ctx) : list Response * Ctx :=
  match reqs with
  | [] => ([], ctx)
  | (svc, req) :: rest =>
      let '(resp, ctx') := dispatch_request oauth_client svc warehouse_id req ctx in
      let '(resps, ctx'') := serve oauth_client warehouse_id rest ctx' in
      (resp :: resps, ctx'')
  end.

(** ** Further deployments *)

Module Cases.

(** The services of [Demo.services 0], except that the execution
    endpoint gives [answer] whatever the statement and that
    [pd.DataFrame] raises [frame_error] when there is one. *)
Definition services (answer : Exn + StatementResponse)
    (frame_error : option Exn) : Services :=
  {| pkce_generate := pkce_generate (Demo.services 0);
     authorization_endpoint := authorization_endpoint (Demo.services 0);
     token_endpoint := token_endpoint (Demo.services 0);
     execute_statement := fun _ _ _ => answer;
     form_validate := form_validate (Demo.services 0);
     pd_DataFrame := fun data cols =>
       match frame_error with
       | Some e => inl e
       | None => inr {| df_columns := cols; df_data := data |}
       end;
     to_html := to_html (Demo.services 0) |}.

(** a response that arrived without manifest *)
Definition no_manifest : StatementResponse :=
  {| manifest := None; result := Some {| data_array := Some [["1"]] |} |}.

(** a POST / that submits no [sql] field *)
Definition empty_post : Request :=
  {| path := "/"; method := POST; args := ∅; form_data := ∅ |}.

(** a POST on the callback rule *)
Definition post_callback : Request :=
  {| path := "/callback"; method := POST;
     args := {[ "code" := "ABC"; "state" := "S1" ]}; form_data := ∅ |}.

(** login, callback, query: three requests of one browser *)
Definition browsing : list (Services * Request) :=
  [(Demo.services 0, Demo.get_index);
   (Demo.services 0, Demo.get_callback "ABC" "S1");
   (Demo.services 0, Demo.post_index "SELECT 1")].


End Cases.

(** * Properties *)

Ltac unfold_handler :=
  unfold dispatch_request, run_view, callback, index, run_query,
    exchange_callback_parameters, Consent_from_dict,
    SessionCredentials_from_dict, validate_on_submit, is_submitted,
    sql_data, render_template, redirect, url_for_index,
    try_except, bind, ret, raise,
    session_get, session_set, session_contains, flash, downstream in *.

Section Properties.

Variable oauth_client : OAuthClient.
Variable svc : Services.
Variable warehouse_id : option string.

Local Abbreviation dispatch := (dispatch_request oauth_client svc warehouse_id).

(** ** The callback view *)

(** C1. A callback whose state parameter is not the state of the consent
    stored in the session is rejected: the exchange raises
    [StateMismatchError], which leaves the view, and the request context
    is as before - nothing is written to the session, so no credentials
    are created, and the token endpoint is not called. *)
Theorem callback_state_mismatch_rejected (req : Request) (ctx : Ctx) (d : ConsentDict) :
  path req = "/callback" →
  method req = GET →
  session ctx !! "consent" = Some (VConsent d) →
  args req !! "state" ≠ Some (d_state d) →
  dispatch req ctx = (ServerError StateMismatchError, ctx).
Proof.
  intros Hpath Hmeth Hconsent Hstate.
  unfold_handler. rewrite Hpath, Hmeth. simpl.
  rewrite Hconsent.
  by rewrite bool_decide_eq_false_2.
Qed.

(** C7. A callback with a code the token endpoint accepts and the state
    of the stored consent stores the exchanged credentials under "creds"
    and redirects to the index page. *)
Theorem callback_stores_credentials (req : Request) (ctx : Ctx)
    (d : ConsentDict) (code : string) (creds : Credentials) :
  path req = "/callback" →
  method req = GET →
  session ctx !! "consent" = Some (VConsent d) →
  args req !! "state" = Some (d_state d) →
  args req !! "error" = None →
  args req !! "code" = Some code →
  token_endpoint svc (Some code) (d_verifier d) = inr creds →
  dispatch req ctx =
    (Redirect (Local "/"),
     {| session := <["creds" := VCreds creds]> (session ctx);
        flashes := flashes ctx;
        calls := calls ctx ++ [CallTokenExchange (Some code) (d_verifier d)] |}).
Proof.
  intros Hpath Hmeth Hconsent Hstate Herr Hcode Htok.
  unfold_handler. rewrite Hpath, Hmeth. simpl.
  rewrite Hconsent.
  rewrite bool_decide_eq_true_2 by done.
  rewrite Herr, Hcode, Htok. reflexivity.
Qed.

(** C9. A callback that finds no consent in the session fails on the
    lookup [session["consent"]]: the [KeyError] leaves the view, no call
    to the token endpoint has been made and the session is as it was. *)
Theorem callback_without_consent (req : Request) (ctx : Ctx) :
  path req = "/callback" →
  method req = GET →
  session ctx !! "consent" = None →
  dispatch req ctx = (ServerError (KeyError "consent"), ctx).
Proof.
  intros Hpath Hmeth Hconsent.
  unfold_handler. rewrite Hpath, Hmeth. simpl.
  by rewrite Hconsent.
Qed.

(** C3, as the script has it.  The callback view reads the consent and
    leaves it where it was: whatever the outcome of the exchange, the
    session's "consent" entry after the view is the one before it. *)
Theorem callback_keeps_consent (req : Request) (ctx : Ctx) :
  session (run_view (callback svc req) ctx).2 !! "consent"
  = session ctx !! "consent".
Proof.
  unfold_handler.
  destruct (session ctx !! "consent") as [[d|c]|] eqn:Hconsent; simpl;
    try by rewrite Hconsent.
  case_bool_decide; simpl; [|by rewrite Hconsent].
  destruct (args req !! "error"); simpl; [by rewrite Hconsent|].
  destruct (token_endpoint svc _ _); simpl; [by rewrite Hconsent|].
  by rewrite lookup_insert_ne.
Qed.

(** ** The index view *)


(** C4. A POST / whose statement makes the execution call raise flashes
    the text of the exception it raised - the provider's message - under
    'alert-danger' and renders the form with no table. *)
Theorem query_error_flashed_no_table (req : Request) (ctx : Ctx)
    (c : Credentials) (e : Exn) :
  path req = "/" →
  method req = POST →
  session ctx !! "creds" = Some (VCreds c) →
  form_validate svc (form_data req) = true →
  execute_statement svc c warehouse_id (form_data req !! "sql") = inl e →
  dispatch req ctx =
    (Render "index.html" {| fields := form_data req |} None,
     {| session := session ctx;
        flashes := flashes ctx ++ [("alert-danger", exn_text e)];
        calls := calls ctx
                 ++ [CallExecuteStatement c warehouse_id (form_data req !! "sql")] |}).
Proof.
  intros Hpath Hmeth Hcreds Hvalid Hexec.
  unfold_handler. rewrite Hpath, Hmeth. simpl.
  repeat (rewrite Hcreds; simpl).
  rewrite Hvalid, Hexec. reflexivity.
Qed.

(** The index view, run on a session that holds credentials, returns a
    rendering of the form and leaves the entries under the script's own
    session keys alone. *)
Lemma index_with_creds (req : Request) (ctx : Ctx) (c : Credentials) :
  session ctx !! "creds" = Some (VCreds c) →
  ∃ table ctx',
    index oauth_client svc warehouse_id req ctx
    = (Returned (Render "index.html" {| fields := form_data req |} table), ctx')
    ∧ session ctx' = session ctx.
Proof.
  intros Hcreds. unfold_handler.
  repeat (rewrite Hcreds; simpl).
  destruct (_ && _); [|by eauto].
  destruct (execute_statement svc c _ _) as [e|r]; simpl; [by eauto|].
  destruct (manifest r) as [m|]; simpl; [|by eauto].
  destruct (schema m) as [sch|]; simpl; [|by eauto].
  destruct (columns sch) as [cs|]; simpl; [|by eauto].
  destruct (result r) as [res|]; simpl; [|by eauto].
  destruct (pd_DataFrame svc _ _); simpl; by eauto.
Qed.

(** C6, as the script has it.  The index view never clears the stored
    credentials.  A failed refresh of expired credentials surfaces as an
    exception of the execution call of a validated POST / : its text is
    flashed under 'alert-danger' and the form is rendered without a
    table; the credentials are still stored afterwards, and the next
    GET / is answered with the form, not with a redirect to the
    provider. *)
Theorem index_keeps_credentials (req next : Request) (ctx : Ctx)
    (c : Credentials) (e : Exn) :
  path req = "/" →
  method req = POST →
  session ctx !! "creds" = Some (VCreds c) →
  form_validate svc (form_data req) = true →
  execute_statement svc c warehouse_id (form_data req !! "sql") = inl e →
  path next = "/" →
  method next = GET →
  (dispatch req ctx).1 = Render "index.html" {| fields := form_data req |} None
  ∧ flashes (dispatch req ctx).2
    = (flashes ctx ++ [("alert-danger", exn_text e)])%list
  ∧ session (dispatch req ctx).2 !! "creds" = Some (VCreds c)
  ∧ (dispatch next (dispatch req ctx).2).1
    = Render "index.html" {| fields := form_data next |} None.
Proof.
  intros Hpath Hmeth Hcreds Hvalid Hexec Hpath' Hmeth'.
  assert (Hdisp : dispatch req ctx =
            (Render "index.html" {| fields := form_data req |} None,
             {| session := session ctx;
                flashes := flashes ctx ++ [("alert-danger", exn_text e)];
                calls := calls ctx
                         ++ [CallExecuteStatement c warehouse_id
                               (form_data req !! "sql")] |})).
  { unfold_handler. rewrite Hpath, Hmeth. simpl.
    repeat (rewrite Hcreds; simpl).
    rewrite Hvalid, Hexec. reflexivity. }
  rewrite Hdisp. simpl.
  split; [done|]. split; [done|]. split; [done|].
  unfold_handler. rewrite Hpath', Hmeth'. simpl.
  repeat (rewrite Hcreds; simpl). reflexivity.
Qed.

(** The index view, run on a session without credentials, redirects and
    makes no downstream call. *)
Lemma index_without_creds (req : Request) (ctx : Ctx) :
  session ctx !! "creds" = None →
  index oauth_client svc warehouse_id req ctx =
    (Returned (Redirect (External (auth_url (initiate_consent oauth_client svc)))),
     {| session := <["consent" :=
                       VConsent (Consent_as_dict (initiate_consent oauth_client svc))]>
                     (session ctx);
        flashes := flashes ctx;
        calls := calls ctx |}).
Proof.
  intros Hnone. unfold_handler.
  rewrite Hnone. simpl.
  reflexivity.
Qed.



(** ** The boundary *)

(** C2, as the script has it.  The index view catches: an exception
    raised by the execution call of a validated POST / does not leave the
    view; it is converted into a message for the user - its text is
    flashed under 'alert-danger' and the form is rendered without a
    table.  The callback view does not catch: a failure of the token
    endpoint leaves the view as a [TokenExchangeError] and the framework
    answers with its error page. *)
Theorem downstream_exceptions_at_boundary (req : Request) (ctx : Ctx) :
  (∀ c e,
     path req = "/" →
     method req = POST →
     session ctx !! "creds" = Some (VCreds c) →
     form_validate svc (form_data req) = true →
     execute_statement svc c warehouse_id (form_data req !! "sql") = inl e →
     dispatch req ctx =
       (Render "index.html" {| fields := form_data req |} None,
        {| session := session ctx;
           flashes := flashes ctx ++ [("alert-danger", exn_text e)];
           calls := calls ctx
                    ++ [CallExecuteStatement c warehouse_id
                          (form_data req !! "sql")] |}))
  ∧ (∀ d msg,
       path req = "/callback" →
       method req = GET →
       session ctx !! "consent" = Some (VConsent d) →
       args req !! "state" = Some (d_state d) →
       args req !! "error" = None →
       token_endpoint svc (args req !! "code") (d_verifier d) = inl msg →
       dispatch req ctx =
         (ServerError (TokenExchangeError msg),
          {| session := session ctx;
             flashes := flashes ctx;
             calls := calls ctx
                      ++ [CallTokenExchange (args req !! "code") (d_verifier d)] |})).
Proof.
  split.
  - intros c e Hpath Hmeth Hcreds Hvalid Hexec.
    unfold_handler. rewrite Hpath, Hmeth. simpl.
    repeat (rewrite Hcreds; simpl).
    rewrite Hvalid, Hexec. reflexivity.
  - intros d msg Hpath Hmeth Hconsent Hstate Herr Htok.
    unfold_handler. rewrite Hpath, Hmeth. simpl.
    rewrite Hconsent.
    rewrite bool_decide_eq_true_2 by done.
    rewrite Herr, Htok. reflexivity.
Qed.


(** What the index view hands to the template and to the flash queue
    depends on the stored credentials only through the answer of the
    execution call: two sessions whose credentials get the same answer
    get the same response and the same flashes. *)
Lemma index_response_through_execution_only (req : Request) (ctx1 ctx2 : Ctx)
    (c1 c2 : Credentials) :
  session ctx1 !! "creds" = Some (VCreds c1) →
  session ctx2 !! "creds" = Some (VCreds c2) →
  flashes ctx1 = flashes ctx2 →
  execute_statement svc c1 warehouse_id (form_data req !! "sql")
  = execute_statement svc c2 warehouse_id (form_data req !! "sql") →
  let out1 := run_view (index oauth_client svc warehouse_id req) ctx1 in
  let out2 := run_view (index oauth_client svc warehouse_id req) ctx2 in
  out1.1 = out2.1 ∧ flashes out1.2 = flashes out2.2.
Proof.
  intros H1 H2 Hfl Hexec. unfold_handler.
  repeat (rewrite H1; simpl). repeat (rewrite H2; simpl).
  destruct (_ && _); [|done].
  rewrite Hexec.
  destruct (execute_statement svc c2 _ _) as [e|r]; simpl; [by rewrite Hfl|].
  destruct (manifest r) as [m|]; simpl; [|by rewrite Hfl].
  destruct (schema m) as [sch|]; simpl; [|by rewrite Hfl].
  destruct (columns sch) as [cs|]; simpl; [|by rewrite Hfl].
  destruct (result r) as [res|]; simpl; [|by rewrite Hfl].
  destruct (pd_DataFrame svc _ _); simpl; by rewrite Hfl.
Qed.

End Properties.

(** * The properties at the concrete deployment *)

Lemma callback_state_mismatch_rejected_witness :
  dispatch_request Demo.client (Demo.services 0) None
    (Demo.get_callback "ABC" "WRONG") Demo.pending_ctx
  = (ServerError StateMismatchError, Demo.pending_ctx).
Proof.
  apply (callback_state_mismatch_rejected Demo.client (Demo.services 0) None
           (Demo.get_callback "ABC" "WRONG") Demo.pending_ctx
           {| d_state := "S1"; d_verifier := "V1" |}).
  - reflexivity.
  - reflexivity.
  - reflexivity.
  - vm_compute. discriminate.
Defined.

Lemma callback_stores_credentials_witness :
  dispatch_request Demo.client (Demo.services 0) None
    (Demo.get_callback "ABC" "S1") Demo.pending_ctx
  = (Redirect (Local "/"),
     {| session := <["creds" := VCreds Demo.fresh]> (session Demo.pending_ctx);
        flashes := [];
        calls := [CallTokenExchange (Some "ABC") "V1"] |}).
Proof.
  apply (callback_stores_credentials Demo.client (Demo.services 0) None
           (Demo.get_callback "ABC" "S1") Demo.pending_ctx
           {| d_state := "S1"; d_verifier := "V1" |} "ABC" Demo.fresh);
    reflexivity.
Defined.

Lemma callback_without_consent_witness :
  dispatch_request Demo.client (Demo.services 0) None
    (Demo.get_callback "ABC" "S1") Demo.empty_ctx
  = (ServerError (KeyError "consent"), Demo.empty_ctx).
Proof.
  apply (callback_without_consent Demo.client (Demo.services 0) None
           (Demo.get_callback "ABC" "S1") Demo.empty_ctx);
    reflexivity.
Defined.


Lemma query_error_flashed_no_table_witness :
  dispatch_request Demo.client (Demo.services 0) None
    (Demo.post_index "SELEC 1") Demo.logged_in_ctx
  = (Render "index.html" {| fields := {[ "sql" := "SELEC 1" ]} |} None,
     {| session := session Demo.logged_in_ctx;
        flashes := [("alert-danger", "PARSE_SYNTAX_ERROR")];
        calls := [CallExecuteStatement Demo.fresh None (Some "SELEC 1")] |}).
Proof.
  apply (query_error_flashed_no_table Demo.client (Demo.services 0) None
           (Demo.post_index "SELEC 1") Demo.logged_in_ctx Demo.fresh
           (QueryExecutionError "PARSE_SYNTAX_ERROR"));
    reflexivity.
Defined.

Lemma index_keeps_credentials_witness :
  let out := dispatch_request Demo.client (Demo.services 7200) None
               (Demo.post_index "SELECT 1") Demo.logged_in_ctx in
  out.1 = Render "index.html" {| fields := {[ "sql" := "SELECT 1" ]} |} None
  ∧ flashes out.2 = [("alert-danger", "invalid_grant: refresh token revoked")]
  ∧ session out.2 !! "creds" = Some (VCreds Demo.fresh)
  ∧ (dispatch_request Demo.client (Demo.services 7200) None Demo.get_index out.2).1
    = Render "index.html" {| fields := ∅ |} None.
Proof.
  exact (index_keeps_credentials Demo.client (Demo.services 7200) None
           (Demo.post_index "SELECT 1") Demo.get_index Demo.logged_in_ctx Demo.fresh
           (ValueError "invalid_grant: refresh token revoked")
           eq_refl eq_refl eq_refl eq_refl eq_refl eq_refl eq_refl).
Defined.


Lemma downstream_exceptions_at_boundary_witness :
  dispatch_request Demo.client (Demo.services 0) None
    (Demo.post_index "SELEC 1") Demo.logged_in_ctx
  = (Render "index.html" {| fields := {[ "sql" := "SELEC 1" ]} |} None,
     {| session := session Demo.logged_in_ctx;
        flashes := [("alert-danger", "PARSE_SYNTAX_ERROR")];
        calls := [CallExecuteStatement Demo.fresh None (Some "SELEC 1")] |})
  ∧ dispatch_request Demo.client (Demo.services 0) None
      (Demo.get_callback "XYZ" "S1") Demo.pending_ctx
    = (ServerError (TokenExchangeError "invalid_grant"),
       {| session := session Demo.pending_ctx;
          flashes := [];
          calls := [CallTokenExchange (Some "XYZ") "V1"] |}).
Proof.
  split.
  - exact (proj1 (downstream_exceptions_at_boundary Demo.client (Demo.services 0)
                    None (Demo.post_index "SELEC 1") Demo.logged_in_ctx)
             Demo.fresh (QueryExecutionError "PARSE_SYNTAX_ERROR")
             eq_refl eq_refl eq_refl eq_refl eq_refl).
  - exact (proj2 (downstream_exceptions_at_boundary Demo.client (Demo.services 0)
                    None (Demo.get_callback "XYZ" "S1") Demo.pending_ctx)
             {| d_state := "S1"; d_verifier := "V1" |} "invalid_grant"
             eq_refl eq_refl eq_refl eq_refl eq_refl eq_refl).
Defined.

(** The end-to-end scenario: an unauthenticated GET / redirects to the
    provider with state S1; the callback with code ABC and state S1 leaves
    credentials in the session; POST / with SELECT 1 renders a table. *)
Example login_then_query :
  let run := dispatch_request Demo.client (Demo.services 0) None in
  let step1 := run Demo.get_index Demo.empty_ctx in
  let step2 := run (Demo.get_callback "ABC" "S1") step1.2 in
  let step3 := run (Demo.post_index "SELECT 1") step2.2 in
  (∃ u, step1.1 = Redirect (External u) ∧ ("state", "S1") ∈ query u)
  ∧ step2.1 = Redirect (Local "/")
  ∧ session step2.2 !! "creds" = Some (VCreds Demo.fresh)
  ∧ step3.1 = Render "index.html" {| fields := {[ "sql" := "SELECT 1" ]} |}
                (Some "<table>...</table>")
  ∧ calls step3.2
    = [CallTokenExchange (Some "ABC") "V1";
       CallExecuteStatement Demo.fresh None (Some "SELECT 1")].
Proof.
  simpl. split; [|by vm_compute].
  exists (auth_url (initiate_consent Demo.client (Demo.services 0))).
  split; [by vm_compute|].
  unfold initiate_consent. simpl.
  rewrite !elem_of_cons. tauto.
Qed.

(** * Where the script departs from the specification *)

(** C2 as specified fails: a GET /callback with the right state whose
    code the token endpoint refuses is answered by the framework's error
    page; the exception of the downstream call was not caught. *)
Lemma token_exchange_failure_reaches_error_page :
  let req := Demo.get_callback "XYZ" "S1" in
  path req = "/callback" ∧ method req = GET
  ∧ token_endpoint (Demo.services 0) (args req !! "code") "V1" = inl "invalid_grant"
  ∧ (dispatch_request Demo.client (Demo.services 0) None req Demo.pending_ctx).1
    = ServerError (TokenExchangeError "invalid_grant").
Proof. vm_compute. done. Qed.

(** C3 as specified fails: after a callback that exchanged the code, the
    consent is still in the session, and the same callback sent again is
    exchanged again with the same verifier. *)
Lemma consent_still_stored_after_exchange :
  let req := Demo.get_callback "ABC" "S1" in
  let once := dispatch_request Demo.client (Demo.services 0) None req Demo.pending_ctx in
  let twice := dispatch_request Demo.client (Demo.services 0) None req once.2 in
  once.1 = Redirect (Local "/")
  ∧ session once.2 !! "creds" = Some (VCreds Demo.fresh)
  ∧ session once.2 !! "consent"
    = Some (VConsent {| d_state := "S1"; d_verifier := "V1" |})
  ∧ session once.2 !! "consent" ≠ None
  ∧ calls twice.2
    = [CallTokenExchange (Some "ABC") "V1"; CallTokenExchange (Some "ABC") "V1"].
Proof. vm_compute. done. Qed.

(** C6 as specified fails: with the clock past the expiry of the stored
    credentials and a refresh endpoint that refuses, a POST / flashes the
    refusal and renders the form; the credentials are still in the
    session and the next GET / shows the form again instead of starting a
    login. *)
Lemma failed_refresh_keeps_credentials :
  let now := 7200%Z in
  let req := Demo.post_index "SELECT 1" in
  let out := dispatch_request Demo.client (Demo.services now) None req Demo.logged_in_ctx in
  (expiry Demo.fresh < now)%Z
  ∧ execute_statement (Demo.services now) Demo.fresh None (Some "SELECT 1")
    = inl (ValueError "invalid_grant: refresh token revoked")
  ∧ out.1 = Render "index.html" {| fields := {[ "sql" := "SELECT 1" ]} |} None
  ∧ flashes out.2 = [("alert-danger", "invalid_grant: refresh token revoked")]
  ∧ session out.2 !! "creds" = Some (VCreds Demo.fresh)
  ∧ session out.2 !! "creds" ≠ None
  ∧ (dispatch_request Demo.client (Demo.services now) None Demo.get_index out.2).1
    = Render "index.html" {| fields := ∅ |} None.
Proof. vm_compute. done. Qed.

(** * More of the two views *)

Section Views.

Variable oauth_client : OAuthClient.
Variable svc : Services.
Variable warehouse_id : option string.

Local Abbreviation dispatch := (dispatch_request oauth_client svc warehouse_id).
Local Abbreviation index_view := (index oauth_client svc warehouse_id).

(** The outcomes of the callback view: it raises before any call, or the
    token endpoint refuses, or the credentials are stored. *)
Lemma callback_cases (req : Request) (ctx : Ctx) :
  (∃ e, callback svc req ctx = (Raised e, ctx))
  ∨ (∃ d msg,
       session ctx !! "consent" = Some (VConsent d)
       ∧ callback svc req ctx =
           (Raised (TokenExchangeError msg),
            {| session := session ctx; flashes := flashes ctx;
               calls := calls ctx
                        ++ [CallTokenExchange (args req !! "code") (d_verifier d)] |}))
  ∨ (∃ d creds,
       session ctx !! "consent" = Some (VConsent d)
       ∧ token_endpoint svc (args req !! "code") (d_verifier d) = inr creds
       ∧ callback svc req ctx =
           (Returned (Redirect (Local "/")),
            {| session := <["creds" := VCreds creds]> (session ctx);
               flashes := flashes ctx;
               calls := calls ctx
                        ++ [CallTokenExchange (args req !! "code") (d_verifier d)] |})).
Proof.
  unfold_handler.
  destruct (session ctx !! "consent") as [[d|c]|] eqn:Hconsent; simpl;
    [|left; by eauto..].
  case_bool_decide; simpl; [|left; by eauto].
  destruct (args req !! "error"); simpl; [left; by eauto|].
  destruct (token_endpoint svc _ _) as [msg|creds] eqn:Htok; simpl.
  - right; left. by eauto.
  - right; right. exists d, creds. by rewrite Htok.
Qed.

(** The outcomes of the index view on a session that holds credentials:
    nothing was submitted, or the [try] body raised, or it gave a frame. *)
Lemma index_creds_cases (req : Request) (ctx : Ctx) (c : Credentials) :
  session ctx !! "creds" = Some (VCreds c) →
  let form := {| fields := form_data req |} in
  let ctx1 :=
    {| session := session ctx; flashes := flashes ctx;
       calls := calls ctx
                ++ [CallExecuteStatement c warehouse_id (form_data req !! "sql")] |} in
  (validate_on_submit svc req form = false
   ∧ index_view req ctx = (Returned (Render "index.html" form None), ctx))
  ∨ (validate_on_submit svc req form = true
     ∧ ∃ e,
         index_view req ctx =
           (Returned (Render "index.html" form None),
            {| session := session ctx;
               flashes := flashes ctx ++ [("alert-danger", exn_text e)];
               calls := calls ctx1 |}))
  ∨ (validate_on_submit svc req form = true
     ∧ ∃ r df,
         execute_statement svc c warehouse_id (form_data req !! "sql") = inr r
         ∧ index_view req ctx =
             (Returned (Render "index.html" form (Some (to_html svc df))), ctx1)).
Proof.
  intros Hcreds form ctx1. subst form ctx1.
  unfold_handler.
  repeat (rewrite Hcreds; simpl).
  destruct (_ && _); [right|left; done].
  destruct (execute_statement svc c _ _) as [e|r]; simpl; [left; by eauto|].
  destruct (manifest r) as [m|]; simpl;
    [|left; split; [done|]; by eexists (AttributeError _)].
  destruct (schema m) as [sch|]; simpl;
    [|left; split; [done|]; by eexists (AttributeError _)].
  destruct (columns sch) as [cs|]; simpl;
    [|left; split; [done|]; by eexists (TypeError _)].
  destruct (result r) as [res|]; simpl;
    [|left; split; [done|]; by eexists (AttributeError _)].
  destruct (pd_DataFrame svc _ _) as [e|df]; simpl; [left; by eauto|].
  right. by eauto.
Qed.

(** X1. A POST / whose statement runs and whose response has a manifest
    with columns and a result renders the form with a table: the HTML of
    the frame built from the data array and the column names, in the
    order of the manifest.  Nothing is flashed and the session is as it
    was. *)
Theorem query_success_renders_table (req : Request) (ctx : Ctx) (c : Credentials)
    (r : StatementResponse) (m : ResultManifest) (sch : ResultSchema)
    (cs : list ColumnInfo) (res : ResultData) (df : DataFrame) :
  path req = "/" →
  method req = POST →
  session ctx !! "creds" = Some (VCreds c) →
  form_validate svc (form_data req) = true →
  execute_statement svc c warehouse_id (form_data req !! "sql") = inr r →
  manifest r = Some m →
  schema m = Some sch →
  columns sch = Some cs →
  result r = Some res →
  pd_DataFrame svc (data_array res) (map name cs) = inr df →
  dispatch req ctx =
    (Render "index.html" {| fields := form_data req |} (Some (to_html svc df)),
     {| session := session ctx;
        flashes := flashes ctx;
        calls := calls ctx
                 ++ [CallExecuteStatement c warehouse_id (form_data req !! "sql")] |}).
Proof.
  intros Hpath Hmeth Hcreds Hvalid Hexec Hm Hsch Hcs Hres Hdf.
  unfold_handler. rewrite Hpath, Hmeth. simpl.
  repeat (rewrite Hcreds; simpl).
  rewrite Hvalid, Hexec. simpl.
  rewrite Hm. simpl. rewrite Hsch. simpl. rewrite Hcs. simpl.
  rewrite Hres. simpl. rewrite Hdf. reflexivity.
Qed.

(** X2. On a session with credentials, a request to / that is no
    submission (a GET or HEAD) or whose form the validators refuse runs
    nothing: the form is rendered without a table, no downstream call is
    made, nothing is flashed, and the stored credentials and consent are
    as they were. *)
Theorem no_submission_no_execution (req : Request) (ctx : Ctx) (c : Credentials) :
  path req = "/" →
  method req = GET ∨ method req = HEAD ∨ method req = POST →
  session ctx !! "creds" = Some (VCreds c) →
  validate_on_submit svc req {| fields := form_data req |} = false →
  (dispatch req ctx).1 = Render "index.html" {| fields := form_data req |} None
  ∧ calls (dispatch req ctx).2 = calls ctx
  ∧ flashes (dispatch req ctx).2 = flashes ctx
  ∧ session (dispatch req ctx).2 !! "creds" = Some (VCreds c)
  ∧ session (dispatch req ctx).2 !! "consent" = session ctx !! "consent".
Proof.
  intros Hpath Hmeth Hcreds Hno.
  assert (Hix : index_view req ctx
                = (Returned (Render "index.html" {| fields := form_data req |} None), ctx)).
  { destruct (index_creds_cases req ctx c Hcreds) as [[_ H]|[[Hv _]|[Hv _]]];
      [done|congruence..]. }
  assert (Hdisp : dispatch req ctx
                  = (Render "index.html" {| fields := form_data req |} None, ctx)).
  { unfold dispatch_request, run_view. rewrite Hpath. simpl.
    destruct Hmeth as [->|[->| ->]]; by rewrite Hix. }
  rewrite Hdisp. simpl. by rewrite Hcreds.
Qed.

(** X3. A statement response that lacks the manifest, the schema, the
    columns or the result is handled like a failure of the call: one
    message is flashed under 'alert-danger' and the form is rendered
    without a table. *)
Theorem incomplete_response_flashed (req : Request) (ctx : Ctx) (c : Credentials)
    (r : StatementResponse) :
  path req = "/" →
  method req = POST →
  session ctx !! "creds" = Some (VCreds c) →
  form_validate svc (form_data req) = true →
  execute_statement svc c warehouse_id (form_data req !! "sql") = inr r →
  manifest r = None
  ∨ (∃ m, manifest r = Some m ∧ schema m = None)
  ∨ (∃ m sch, manifest r = Some m ∧ schema m = Some sch ∧ columns sch = None)
  ∨ result r = None →
  ∃ msg,
    dispatch req ctx =
      (Render "index.html" {| fields := form_data req |} None,
       {| session := session ctx;
          flashes := flashes ctx ++ [("alert-danger", msg)];
          calls := calls ctx
                   ++ [CallExecuteStatement c warehouse_id (form_data req !! "sql")] |}).
Proof.
  intros Hpath Hmeth Hcreds Hvalid Hexec Hmissing.
  unfold_handler. rewrite Hpath, Hmeth. simpl.
  repeat (rewrite Hcreds; simpl).
  rewrite Hvalid, Hexec. simpl.
  destruct (manifest r) as [m|] eqn:Hm; simpl; [|by eauto].
  destruct (schema m) as [sch|] eqn:Hsch; simpl; [|by eauto].
  destruct (columns sch) as [cs|] eqn:Hcs; simpl; [|by eauto].
  destruct (result r) as [res|] eqn:Hres; simpl; [|by eauto].
  exfalso.
  destruct Hmissing as [?|[(m' & ? & ?)|[(m' & sch' & ? & ? & ?)|?]]];
    simplify_eq.
Qed.

(** X4. An exception of [pd.DataFrame] - inside the [try] as well - is
    flashed with its text, [str(e)], under 'alert-danger', and no table
    is rendered although the statement ran. *)
Theorem dataframe_error_flashed (req : Request) (ctx : Ctx) (c : Credentials)
    (r : StatementResponse) (m : ResultManifest) (sch : ResultSchema)
    (cs : list ColumnInfo) (res : ResultData) (e : Exn) :
  path req = "/" →
  method req = POST →
  session ctx !! "creds" = Some (VCreds c) →
  form_validate svc (form_data req) = true →
  execute_statement svc c warehouse_id (form_data req !! "sql") = inr r →
  manifest r = Some m →
  schema m = Some sch →
  columns sch = Some cs →
  result r = Some res →
  pd_DataFrame svc (data_array res) (map name cs) = inl e →
  dispatch req ctx =
    (Render "index.html" {| fields := form_data req |} None,
     {| session := session ctx;
        flashes := flashes ctx ++ [("alert-danger", exn_text e)];
        calls := calls ctx
                 ++ [CallExecuteStatement c warehouse_id (form_data req !! "sql")] |}).
Proof.
  intros Hpath Hmeth Hcreds Hvalid Hexec Hm Hsch Hcs Hres Hdf.
  unfold_handler. rewrite Hpath, Hmeth. simpl.
  repeat (rewrite Hcreds; simpl).
  rewrite Hvalid, Hexec. simpl.
  rewrite Hm. simpl. rewrite Hsch. simpl. rewrite Hcs. simpl.
  rewrite Hres. simpl. rewrite Hdf. reflexivity.
Qed.

(** The index view on a session whose "creds" entry is no credentials
    dict fails on the missing key. *)
Lemma index_malformed (req : Request) (ctx : Ctx) (d : ConsentDict) :
  session ctx !! "creds" = Some (VConsent d) →
  index_view req ctx = (Raised (KeyError "token"), ctx).
Proof.
  intros Hcreds. unfold_handler.
  repeat (rewrite Hcreds; simpl). reflexivity.
Qed.

(** Every way a request can be answered, with the request context it
    leaves. *)
Lemma dispatch_cases (req : Request) (ctx : Ctx) :
  let form := {| fields := form_data req |} in
  let on_callback := path req = "/callback" ∧ (method req = GET ∨ method req = HEAD) in
  let on_index :=
    path req = "/" ∧ (method req = GET ∨ method req = HEAD ∨ method req = POST) in
  (¬ on_callback ∧ ¬ on_index
   ∧ ∃ r, (r = NotFound ∨ r = MethodNotAllowed ∨ r = OptionsResponse)
          ∧ dispatch req ctx = (r, ctx))
  ∨ (on_callback ∧ ∃ e, dispatch req ctx = (ServerError e, ctx))
  ∨ (on_callback ∧ ∃ d msg,
       session ctx !! "consent" = Some (VConsent d)
       ∧ dispatch req ctx =
           (ServerError (TokenExchangeError msg),
            {| session := session ctx; flashes := flashes ctx;
               calls := calls ctx
                        ++ [CallTokenExchange (args req !! "code") (d_verifier d)] |}))
  ∨ (on_callback ∧ ∃ d creds,
       session ctx !! "consent" = Some (VConsent d)
       ∧ token_endpoint svc (args req !! "code") (d_verifier d) = inr creds
       ∧ dispatch req ctx =
           (Redirect (Local "/"),
            {| session := <["creds" := VCreds creds]> (session ctx);
               flashes := flashes ctx;
               calls := calls ctx
                        ++ [CallTokenExchange (args req !! "code") (d_verifier d)] |}))
  ∨ (on_index ∧ session ctx !! "creds" = None
     ∧ dispatch req ctx =
         (Redirect (External (auth_url (initiate_consent oauth_client svc))),
          {| session := <["consent" :=
                            VConsent (Consent_as_dict (initiate_consent oauth_client svc))]>
                          (session ctx);
             flashes := flashes ctx;
             calls := calls ctx |}))
  ∨ (on_index ∧ (∃ d, session ctx !! "creds" = Some (VConsent d))
     ∧ dispatch req ctx = (ServerError (KeyError "token"), ctx))
  ∨ (on_index ∧ (∃ c, session ctx !! "creds" = Some (VCreds c))
     ∧ validate_on_submit svc req form = false
     ∧ dispatch req ctx = (Render "index.html" form None, ctx))
  ∨ (on_index ∧ ∃ c e,
       session ctx !! "creds" = Some (VCreds c)
       ∧ validate_on_submit svc req form = true
       ∧ dispatch req ctx =
           (Render "index.html" form None,
            {| session := session ctx;
               flashes := flashes ctx ++ [("alert-danger", exn_text e)];
               calls := calls ctx
                        ++ [CallExecuteStatement c warehouse_id
                              (form_data req !! "sql")] |}))
  ∨ (on_index ∧ ∃ c r df,
       session ctx !! "creds" = Some (VCreds c)
       ∧ validate_on_submit svc req form = true
       ∧ execute_statement svc c warehouse_id (form_data req !! "sql") = inr r
       ∧ dispatch req ctx =
           (Render "index.html" form (Some (to_html svc df)),
            {| session := session ctx;
               flashes := flashes ctx;
               calls := calls ctx
                        ++ [CallExecuteStatement c warehouse_id
                              (form_data req !! "sql")] |})).
Proof.
  intros form on_callback on_index.
  assert (Hcb : on_callback → dispatch req ctx = run_view (callback svc req) ctx).
  { intros [Hp Hm]. unfold dispatch_request. rewrite Hp. simpl.
    by destruct Hm as [->| ->]. }
  assert (Hix : on_index → dispatch req ctx = run_view (index_view req) ctx).
  { intros [Hp Hm]. unfold dispatch_request. rewrite Hp. simpl.
    by destruct Hm as [->|[->| ->]]. }
  destruct (decide (path req = "/callback")) as [Hp|Hp].
  { destruct (method req) eqn:Hm;
      try (left; split; [by intros [_ [?|?]]|];
           split; [by intros [? _]; congruence|];
           unfold dispatch_request; rewrite Hp, Hm; simpl; by eauto 6).
    all: assert (Hon : on_callback) by (split; [done|]; by eauto);
      right; rewrite (Hcb Hon); unfold run_view;
      destruct (callback_cases req ctx)
        as [[e He]|[(d & msg & Hd & He)|(d & creds & Hd & Htok & He)]];
      rewrite He; [left|right; left|right; right; left]; by eauto 8. }
  destruct (decide (path req = "/")) as [Hp'|Hp'].
  2:{ left. split; [by intros [? _]|]. split; [by intros [? _]|].
      unfold dispatch_request.
      rewrite !bool_decide_eq_false_2 by done. by eauto. }
  assert (Hm : (method req = GET ∨ method req = HEAD ∨ method req = POST)
               ∨ (method req = PUT ∨ method req = PATCH ∨ method req = DELETE
                  ∨ method req = OPTIONS)).
  { destruct (method req); by eauto 8. }
  destruct Hm as [Hm|Hm].
  2:{ left. split; [by intros [? _]|].
      split; [intros [_ [?|[?|?]]]; destruct Hm as [?|[?|[?|?]]]; congruence|].
      unfold dispatch_request. rewrite Hp'. simpl.
      destruct Hm as [->|[->|[->| ->]]]; by eauto 6. }
  assert (Hon : on_index) by done.
  right. right. right. right.
  rewrite (Hix Hon). unfold run_view.
  destruct (session ctx !! "creds") as [[d|c]|] eqn:Hcreds.
  - right; left. rewrite (index_malformed req ctx d Hcreds). by eauto.
  - right; right.
    destruct (index_creds_cases req ctx c Hcreds)
      as [[Hv He]|[[Hv [e He]]|[Hv (r & df & Hexec & He)]]]; rewrite He.
    + left. by eauto.
    + right; left. split; [done|]. by exists c, e.
    + right; right. split; [done|]. by exists c, r, df.
  - left. by rewrite (index_without_creds oauth_client svc warehouse_id req ctx Hcreds).
Qed.

(** A list is not itself with one more element. *)
Lemma app_singleton_neq {A} (l : list A) (x : A) : l ≠ (l ++ [x])%list.
Proof.
  intros H. apply (f_equal length) in H.
  rewrite length_app in H. simpl in H. lia.
Qed.

(** X5. The index view never writes the "creds" entry, and it writes
    the "consent" entry only when it redirects a session without
    credentials to the provider: on every other path through the view
    both entries read after it as they read before. *)
Theorem index_never_writes_creds (req : Request) (ctx : Ctx) :
  session (run_view (index_view req) ctx).2 !! "creds" = session ctx !! "creds"
  ∧ (session (run_view (index_view req) ctx).2 !! "consent"
     = session ctx !! "consent"
     ∨ (session ctx !! "creds" = None
        ∧ ∃ u, (run_view (index_view req) ctx).1 = Redirect (External u))).
Proof.
  unfold run_view.
  destruct (session ctx !! "creds") as [[d|c]|] eqn:Hcreds.
  - rewrite (index_malformed req ctx d Hcreds). simpl. by eauto.
  - destruct (index_with_creds oauth_client svc warehouse_id req ctx c Hcreds)
      as (table & ctx' & Hrun & Hsess).
    rewrite Hrun. simpl. rewrite Hsess. by eauto.
  - rewrite (index_without_creds oauth_client svc warehouse_id req ctx Hcreds).
    simpl. rewrite lookup_insert_ne by done. by eauto.
Qed.

(** X6. The callback view is all or nothing: either an exception leaves
    it and the session is exactly as before, or it answers with the
    redirect to / and the session differs from the one before only in the
    "creds" entry, which now holds credentials.  It never flashes. *)
Theorem callback_all_or_nothing (req : Request) (ctx : Ctx) :
  let out := run_view (callback svc req) ctx in
  flashes out.2 = flashes ctx
  ∧ ((∃ e, out.1 = ServerError e ∧ session out.2 = session ctx)
     ∨ (∃ creds, out.1 = Redirect (Local "/")
                 ∧ session out.2 = <["creds" := VCreds creds]> (session ctx))).
Proof.
  unfold run_view.
  destruct (callback_cases req ctx)
    as [[e He]|[(d & msg & Hd & He)|(d & creds & Hd & Htok & He)]];
    rewrite He; simpl; split; try done; by eauto.
Qed.

(** X7. A view invokes at most one downstream operation of the SDK per
    request, and invokes it once: the views have no loop and no retry of
    their own around the exchange or the statement.  (What the SDK does
    inside that one invocation is not counted.) *)
Theorem at_most_one_downstream_call (req : Request) (ctx : Ctx) :
  ∃ made : list Call,
    calls (dispatch req ctx).2 = (calls ctx ++ made)%list ∧ (length made ≤ 1)%nat.
Proof.
  destruct (dispatch_cases req ctx)
    as [(_ & _ & r & _ & H)|[(_ & e & H)|[(_ & d & msg & _ & H)
       |[(_ & d & creds & _ & _ & H)|[(_ & _ & H)|[(_ & _ & H)
       |[(_ & _ & _ & H)|[(_ & c & e & _ & _ & H)
       |(_ & c & r & df & _ & _ & _ & H)]]]]]]]];
    rewrite H; simpl;
    first [ by (exists []; rewrite app_nil_r; split; [done|simpl; lia])
          | by (eexists; split; [reflexivity|simpl; lia]) ].
Qed.

(** X8. Whenever a request runs a statement, it is a validated POST / ,
    the credentials used are the ones stored in this session, the
    warehouse is the module-level [warehouse_id] and the statement is the
    form's [sql] field. *)
Theorem execution_uses_session_credentials (req : Request) (ctx : Ctx)
    (c : Credentials) (w q : option string) :
  calls (dispatch req ctx).2 = (calls ctx ++ [CallExecuteStatement c w q])%list →
  path req = "/" ∧ method req = POST
  ∧ form_validate svc (form_data req) = true
  ∧ session ctx !! "creds" = Some (VCreds c)
  ∧ w = warehouse_id
  ∧ q = form_data req !! "sql".
Proof.
  assert (Hpost : ∀ (Hon : path req = "/" ∧ (method req = GET ∨ method req = HEAD
                                            ∨ method req = POST)),
             validate_on_submit svc req {| fields := form_data req |} = true →
             method req = POST ∧ form_validate svc (form_data req) = true).
  { intros [_ Hm]. unfold validate_on_submit, is_submitted. simpl.
    destruct Hm as [->|[->| ->]]; simpl; by intros. }
  destruct (dispatch_cases req ctx)
    as [(_ & _ & r & _ & H)|[(_ & e & H)|[(_ & d & msg & _ & H)
       |[(_ & d & creds & _ & _ & H)|[(_ & _ & H)|[(_ & _ & H)
       |[(_ & _ & _ & H)|[(Hon & c' & e & Hc & Hv & H)
       |(Hon & c' & r & df & Hc & Hv & _ & H)]]]]]]]];
    rewrite H; simpl; intros Heq;
    try (by apply app_singleton_neq in Heq);
    apply app_inv_head in Heq; try discriminate;
    injection Heq as <- <- <-;
    destruct (Hpost Hon Hv) as [? ?]; by destruct Hon.
Qed.

(** X9. No route removes credentials: a session that holds a "creds"
    entry before a request holds one after it (there is no logout). *)
Theorem credentials_never_removed (req : Request) (ctx : Ctx) :
  is_Some (session ctx !! "creds") →
  is_Some (session (dispatch req ctx).2 !! "creds").
Proof.
  intros Hsome.
  destruct (dispatch_cases req ctx)
    as [(_ & _ & r & _ & H)|[(_ & e & H)|[(_ & d & msg & _ & H)
       |[(_ & d & creds & _ & _ & H)|[(_ & Hnone & H)|[(_ & _ & H)
       |[(_ & _ & _ & H)|[(_ & c & e & _ & _ & H)
       |(_ & c & r & df & _ & _ & _ & H)]]]]]]]];
    rewrite H; simpl; try done.
  - rewrite lookup_insert_eq. by eauto.
  - rewrite Hnone in Hsome. by destruct Hsome.
Qed.

(** X10. Credentials enter a session in one way only: if a request finds
    no "creds" entry and leaves one, it was a GET (or HEAD) on /callback
    that found a consent in the session, and it was answered by the
    redirect to / . *)
Theorem credentials_created_only_by_callback (req : Request) (ctx : Ctx) :
  session ctx !! "creds" = None →
  is_Some (session (dispatch req ctx).2 !! "creds") →
  path req = "/callback"
  ∧ (method req = GET ∨ method req = HEAD)
  ∧ (∃ d, session ctx !! "consent" = Some (VConsent d))
  ∧ (dispatch req ctx).1 = Redirect (Local "/").
Proof.
  intros Hnone.
  destruct (dispatch_cases req ctx)
    as [(_ & _ & r & _ & H)|[(_ & e & H)|[(_ & d & msg & _ & H)
       |[([Hp Hm] & d & creds & Hd & _ & H)|[(_ & _ & H)|[(_ & _ & H)
       |[(_ & _ & _ & H)|[(_ & c & e & _ & _ & H)
       |(_ & c & r & df & _ & _ & _ & H)]]]]]]]];
    rewrite H; simpl; rewrite ?Hnone; try (by intros [? ?]).
  - intros _. by eauto.
  - rewrite lookup_insert_ne, Hnone by done. by intros [? ?].
Qed.

(** X11. A request flashes at most one message, always under the
    category 'alert-danger', and only when it ran a statement and renders
    the form without a table. *)
Theorem flash_only_on_failed_query (req : Request) (ctx : Ctx) :
  flashes (dispatch req ctx).2 = flashes ctx
  ∨ ∃ msg c w q,
      flashes (dispatch req ctx).2 = (flashes ctx ++ [("alert-danger", msg)])%list
      ∧ calls (dispatch req ctx).2 = (calls ctx ++ [CallExecuteStatement c w q])%list
      ∧ (dispatch req ctx).1 = Render "index.html" {| fields := form_data req |} None.
Proof.
  destruct (dispatch_cases req ctx)
    as [(_ & _ & r & _ & H)|[(_ & e & H)|[(_ & d & msg & _ & H)
       |[(_ & d & creds & _ & _ & H)|[(_ & _ & H)|[(_ & _ & H)
       |[(_ & _ & _ & H)|[(_ & c & e & _ & _ & H)
       |(_ & c & r & df & _ & _ & _ & H)]]]]]]]];
    rewrite H; simpl; try (by left).
  right. by eauto 8.
Qed.

(** X12. A table is rendered only from a statement executed in the same
    request: a response with a table comes from a POST / of a session
    with credentials whose execution call returned, and that call is the
    one the request added. *)
Theorem table_only_from_execution (req : Request) (ctx : Ctx)
    (template : string) (form : QueryForm) (html : string) :
  (dispatch req ctx).1 = Render template form (Some html) →
  ∃ c r,
    session ctx !! "creds" = Some (VCreds c)
    ∧ execute_statement svc c warehouse_id (form_data req !! "sql") = inr r
    ∧ calls (dispatch req ctx).2
      = (calls ctx ++ [CallExecuteStatement c warehouse_id (form_data req !! "sql")])%list
    ∧ flashes (dispatch req ctx).2 = flashes ctx
    ∧ session (dispatch req ctx).2 = session ctx.
Proof.
  destruct (dispatch_cases req ctx)
    as [(_ & _ & r & Hr & H)|[(_ & e & H)|[(_ & d & msg & _ & H)
       |[(_ & d & creds & _ & _ & H)|[(_ & _ & H)|[(_ & _ & H)
       |[(_ & _ & _ & H)|[(_ & c & e & _ & _ & H)
       |(_ & c & r & df & Hc & _ & Hexec & H)]]]]]]]];
    rewrite H; simpl; try discriminate.
  - destruct Hr as [->|[->| ->]]; discriminate.
  - intros _. by eauto 8.
Qed.

(** X13. The rules refuse the methods they do not list: a POST, PUT,
    PATCH or DELETE on /callback and a PUT, PATCH or DELETE on / are
    answered with method-not-allowed and no view runs, so the request
    context is untouched.  In particular a POST on /callback never
    reaches the exchange. *)
Theorem unlisted_methods_refused (req : Request) (ctx : Ctx) :
  (path req = "/callback"
   ∧ (method req = POST ∨ method req = PUT ∨ method req = PATCH
      ∨ method req = DELETE))
  ∨ (path req = "/"
     ∧ (method req = PUT ∨ method req = PATCH ∨ method req = DELETE)) →
  dispatch req ctx = (MethodNotAllowed, ctx).
Proof.
  intros [[Hp Hm]|[Hp Hm]]; unfold dispatch_request; rewrite Hp; simpl.
  - by destruct Hm as [->|[->|[->| ->]]].
  - by destruct Hm as [->|[->| ->]].
Qed.

End Views.

(** * A browser session, request after request *)

Section Session.

Variable oauth_client : OAuthClient.
Variable warehouse_id : option string.

Local Abbreviation serve_all := (serve oauth_client warehouse_id).



(** One request keeps: a session with credentials has made a downstream
    call, and the first downstream call is no statement execution. *)
Lemma dispatch_first_call (svc : Services) (req : Request) (ctx : Ctx) :
  (is_Some (session ctx !! "creds") → calls ctx ≠ []) →
  (∀ c, head (calls ctx) = Some c → is_execute c = false) →
  let ctx' := (dispatch_request oauth_client svc warehouse_id req ctx).2 in
  (is_Some (session ctx' !! "creds") → calls ctx' ≠ [])
  ∧ (∀ c, head (calls ctx') = Some c → is_execute c = false).
Proof.
  intros Hcreds Hhead.
  assert (Happ : ∀ x : Call, (calls ctx ++ [x])%list ≠ []).
  { intros x Hx. by destruct (calls ctx). }
  assert (Htok : ∀ x c, is_execute x = false →
                        head (calls ctx ++ [x])%list = Some c → is_execute c = false).
  { intros x c Hx. destruct (calls ctx) as [|y l] eqn:Hl; simpl.
    - by intros [= <-].
    - intros [= <-]. by apply Hhead. }
  assert (Hexec : ∀ x c, calls ctx ≠ [] →
                         head (calls ctx ++ [x])%list = Some c → is_execute c = false).
  { intros x c Hne. destruct (calls ctx) as [|y l] eqn:Hl; [done|]. simpl.
    intros [= <-]. by apply Hhead. }
  destruct (dispatch_cases oauth_client svc warehouse_id req ctx)
    as [(_ & _ & r & _ & H)|[(_ & e & H)|[(_ & d & msg & _ & H)
       |[(_ & d & creds & _ & _ & H)|[(_ & Hnone & H)|[(_ & _ & H)
       |[(_ & _ & _ & H)|[(_ & c & e & Hc & _ & H)
       |(_ & c & r & df & Hc & _ & _ & H)]]]]]]]];
    rewrite H; simpl; try done.
  - split; [by intros _|]. intros c. by apply Htok.
  - split; [by intros _|]. intros c. by apply Htok.
  - split; [|done]. rewrite lookup_insert_ne, Hnone by done. by intros [? ?].
  - split; [by intros _|]. intros c'. apply Hexec. apply Hcreds. by rewrite Hc.
  - split; [by intros _|]. intros c'. apply Hexec. apply Hcreds. by rewrite Hc.
Qed.

Lemma serve_first_call (reqs : list (Services * Request)) (ctx : Ctx) :
  (is_Some (session ctx !! "creds") → calls ctx ≠ []) →
  (∀ c, head (calls ctx) = Some c → is_execute c = false) →
  ∀ c, head (calls (serve_all reqs ctx).2) = Some c → is_execute c = false.
Proof.
  revert ctx. induction reqs as [|[svc req] rest IH]; intros ctx Hcreds Hhead; simpl.
  - done.
  - destruct (dispatch_first_call svc req ctx Hcreds Hhead) as [Hcreds' Hhead'].
    destruct (dispatch_request oauth_client svc warehouse_id req ctx) as [resp ctx'].
    simpl in *.
    specialize (IH ctx' Hcreds' Hhead').
    by destruct (serve_all rest ctx') as [resps ctx''].
Qed.

(** X15. In a browser session that starts without credentials and
    without downstream calls, every statement execution is preceded by a
    call to the token endpoint: no sequence of requests reaches
    [execute_statement] before an exchange. *)
Theorem serve_exchange_before_execution (reqs : list (Services * Request))
    (ctx : Ctx) (pre post : list Call) (x : Call) :
  session ctx !! "creds" = None →
  calls ctx = [] →
  calls (serve_all reqs ctx).2 = (pre ++ x :: post)%list →
  is_execute x = true →
  ∃ code v, CallTokenExchange code v ∈ pre.
Proof.
  intros Hnone Hcalls Heq Hx.
  assert (Hhead : ∀ c, head (calls (serve_all reqs ctx).2) = Some c
                       → is_execute c = false).
  { apply serve_first_call.
    - rewrite Hnone. by intros [? ?].
    - rewrite Hcalls. done. }
  rewrite Heq in Hhead.
  destruct pre as [|y pre'].
  - specialize (Hhead x eq_refl). congruence.
  - specialize (Hhead y eq_refl).
    destruct y as [code v|]; [|done].
    exists code, v. by apply list_elem_of_here.
Qed.


End Session.

(** * Start-up *)


(** * The further properties at concrete deployments *)

Lemma query_success_renders_table_witness :
  dispatch_request Demo.client (Demo.services 0) None
    (Demo.post_index "SELECT 1") Demo.logged_in_ctx
  = (Render "index.html" {| fields := {[ "sql" := "SELECT 1" ]} |}
       (Some "<table>...</table>"),
     {| session := session Demo.logged_in_ctx;
        flashes := [];
        calls := [CallExecuteStatement Demo.fresh None (Some "SELECT 1")] |}).
Proof.
  apply (query_success_renders_table Demo.client (Demo.services 0) None
           (Demo.post_index "SELECT 1") Demo.logged_in_ctx Demo.fresh
           Demo.one_by_one
           {| schema := Some {| columns := Some [ {| name := Some "1" |} ] |} |}
           {| columns := Some [ {| name := Some "1" |} ] |}
           [ {| name := Some "1" |} ]
           {| data_array := Some [["1"]] |}
           {| df_columns := [Some "1"]; df_data := Some [["1"]] |});
    reflexivity.
Defined.

Lemma no_submission_no_execution_witness :
  let out := dispatch_request Demo.client (Demo.services 0) None Cases.empty_post
               Demo.logged_in_ctx in
  out.1 = Render "index.html" {| fields := ∅ |} None
  ∧ calls out.2 = calls Demo.logged_in_ctx
  ∧ flashes out.2 = flashes Demo.logged_in_ctx
  ∧ session out.2 !! "creds" = Some (VCreds Demo.fresh)
  ∧ session out.2 !! "consent" = session Demo.logged_in_ctx !! "consent".
Proof.
  apply (no_submission_no_execution Demo.client (Demo.services 0) None
           Cases.empty_post Demo.logged_in_ctx Demo.fresh).
  - reflexivity.
  - right; right; reflexivity.
  - reflexivity.
  - reflexivity.
Defined.

Lemma incomplete_response_flashed_witness :
  ∃ msg,
    dispatch_request Demo.client (Cases.services (inr Cases.no_manifest) None) None
      (Demo.post_index "SELECT 1") Demo.logged_in_ctx
    = (Render "index.html" {| fields := {[ "sql" := "SELECT 1" ]} |} None,
       {| session := session Demo.logged_in_ctx;
          flashes := [("alert-danger", msg)];
          calls := [CallExecuteStatement Demo.fresh None (Some "SELECT 1")] |}).
Proof.
  apply (incomplete_response_flashed Demo.client
           (Cases.services (inr Cases.no_manifest) None) None
           (Demo.post_index "SELECT 1") Demo.logged_in_ctx Demo.fresh
           Cases.no_manifest).
  - reflexivity.
  - reflexivity.
  - reflexivity.
  - reflexivity.
  - reflexivity.
  - left; reflexivity.
Defined.

Lemma dataframe_error_flashed_witness :
  dispatch_request Demo.client
    (Cases.services (inr Demo.one_by_one) (Some (KeyError "it's")))
    None (Demo.post_index "SELECT 1") Demo.logged_in_ctx
  = (Render "index.html" {| fields := {[ "sql" := "SELECT 1" ]} |} None,
     {| session := session Demo.logged_in_ctx;
        flashes := [("alert-danger",
                     String double_quote ("it's" +:+ String double_quote EmptyString))];
        calls := [CallExecuteStatement Demo.fresh None (Some "SELECT 1")] |}).
Proof.
  apply (dataframe_error_flashed Demo.client
           (Cases.services (inr Demo.one_by_one) (Some (KeyError "it's")))
           None (Demo.post_index "SELECT 1") Demo.logged_in_ctx Demo.fresh
           Demo.one_by_one
           {| schema := Some {| columns := Some [ {| name := Some "1" |} ] |} |}
           {| columns := Some [ {| name := Some "1" |} ] |}
           [ {| name := Some "1" |} ]
           {| data_array := Some [["1"]] |}
           (KeyError "it's"));
    reflexivity.
Defined.

Lemma execution_uses_session_credentials_witness :
  let req := Demo.post_index "SELECT 1" in
  path req = "/" ∧ method req = POST
  ∧ form_validate (Demo.services 0) (form_data req) = true
  ∧ session Demo.logged_in_ctx !! "creds" = Some (VCreds Demo.fresh)
  ∧ None = (None : option string)
  ∧ Some "SELECT 1" = form_data req !! "sql".
Proof.
  apply (execution_uses_session_credentials Demo.client (Demo.services 0) None
           (Demo.post_index "SELECT 1") Demo.logged_in_ctx Demo.fresh
           None (Some "SELECT 1")).
  reflexivity.
Defined.

Lemma credentials_never_removed_witness :
  is_Some (session (dispatch_request Demo.client (Demo.services 7200) None
                      (Demo.post_index "SELECT 1") Demo.logged_in_ctx).2 !! "creds").
Proof.
  apply (credentials_never_removed Demo.client (Demo.services 7200) None
           (Demo.post_index "SELECT 1") Demo.logged_in_ctx).
  exists (VCreds Demo.fresh). reflexivity.
Defined.

Lemma credentials_created_only_by_callback_witness :
  let req := Demo.get_callback "ABC" "S1" in
  path req = "/callback"
  ∧ (method req = GET ∨ method req = HEAD)
  ∧ (∃ d, session Demo.pending_ctx !! "consent" = Some (VConsent d))
  ∧ (dispatch_request Demo.client (Demo.services 0) None req Demo.pending_ctx).1
    = Redirect (Local "/").
Proof.
  apply (credentials_created_only_by_callback Demo.client (Demo.services 0) None
           (Demo.get_callback "ABC" "S1") Demo.pending_ctx).
  - reflexivity.
  - exists (VCreds Demo.fresh). reflexivity.
Defined.

Lemma table_only_from_execution_witness :
  let req := Demo.post_index "SELECT 1" in
  let out := dispatch_request Demo.client (Demo.services 0) None req
               Demo.logged_in_ctx in
  ∃ c r,
    session Demo.logged_in_ctx !! "creds" = Some (VCreds c)
    ∧ execute_statement (Demo.services 0) c None (form_data req !! "sql") = inr r
    ∧ calls out.2
      = (calls Demo.logged_in_ctx
         ++ [CallExecuteStatement c None (form_data req !! "sql")])%list
    ∧ flashes out.2 = flashes Demo.logged_in_ctx
    ∧ session out.2 = session Demo.logged_in_ctx.
Proof.
  apply (table_only_from_execution Demo.client (Demo.services 0) None
           (Demo.post_index "SELECT 1") Demo.logged_in_ctx
           "index.html" {| fields := {[ "sql" := "SELECT 1" ]} |}
           "<table>...</table>").
  reflexivity.
Defined.

Lemma unlisted_methods_refused_witness :
  dispatch_request Demo.client (Demo.services 0) None
    Cases.post_callback Demo.pending_ctx
  = (MethodNotAllowed, Demo.pending_ctx).
Proof.
  apply (unlisted_methods_refused Demo.client (Demo.services 0) None
           Cases.post_callback Demo.pending_ctx).
  left. split; [reflexivity|]. left. reflexivity.
Defined.


Lemma serve_exchange_before_execution_witness :
  calls (serve Demo.client None Cases.browsing Demo.empty_ctx).2
  = [CallTokenExchange (Some "ABC") "V1";
     CallExecuteStatement Demo.fresh None (Some "SELECT 1")]
  ∧ ∃ code v, CallTokenExchange code v ∈ [CallTokenExchange (Some "ABC") "V1"].
Proof.
  split; [reflexivity|].
  apply (serve_exchange_before_execution Demo.client None Cases.browsing
           Demo.empty_ctx [CallTokenExchange (Some "ABC") "V1"] []
           (CallExecuteStatement Demo.fresh None (Some "SELECT 1")));
    reflexivity.
Defined.


